(** * lib/rest-model.js: the REST resource facade and its response normalizer

    A shallow embedding of [RestResource], its CRUD methods, [wrap] and
    [defineFunctions], followed by the properties of the specification
    that concern them. *)

From Stdlib Require Import ZArith List String Ascii Bool Lia DecimalString.
Import ListNotations.
Local Open Scope string_scope.
Local Open Scope Z_scope.

(** ** JavaScript values *)

Module Js.

(** The data values that reach this module as ids, bodies, filters, query
    objects, option contexts, transport errors and parsed response bodies.
    [VNum z] is the Number with integer value [z] (a safe integer, which
    Number::toString prints in plain decimal); [VObj ps] is a plain object
    (prototype [Object.prototype]) whose own enumerable data properties are
    [ps], listed in property enumeration order with distinct keys. *)
#[warnings="-register-all"]
Inductive Val : Type :=
| VUndefined
| VNull
| VBool (b : bool)
| VNum (z : Z)
| VNaN
| VStr (s : string)
| VObj (ps : list (string * Val)).

Definition Props := list (string * Val).

(** Function values are opaque: only their identity is known. *)
Definition FunRef := nat.

(** An argument slot that can hold a function (a callback) or a data value. *)
Inductive Arg : Type :=
| AVal (v : Val)
| AFun (f : FunRef).

(** Exceptions, by the name of their constructor and their message. *)
Record Exn : Type := mkExn { exn_name : string; exn_message : string }.

Definition TypeError (msg : string) : Exn := mkExn "TypeError" msg.
Definition Error (msg : string) : Exn := mkExn "Error" msg.

(** ToBoolean. *)
Definition truthy (v : Val) : bool :=
  match v with
  | VUndefined | VNull | VNaN => false
  | VBool b => b
  | VNum z => negb (z =? 0)
  | VStr s => negb (String.length s =? 0)%nat
  | VObj _ => true
  end.

Definition truthy_arg (a : Arg) : bool :=
  match a with
  | AVal v => truthy v
  | AFun _ => true
  end.

(** [typeof a === 'function'] *)
Definition is_function (a : Arg) : bool :=
  match a with
  | AFun _ => true
  | AVal _ => false
  end.

(** A value is present when it is neither [undefined] nor [null]. *)
Definition present (v : Val) : bool :=
  match v with
  | VUndefined | VNull => false
  | _ => true
  end.

(** Number::toString on the integers. *)
Definition number_to_string (z : Z) : string :=
  NilZero.string_of_int (Z.to_int z).

(** Own properties: lookup, membership and assignment [o.k = v]. *)
Fixpoint get_prop (k : string) (ps : Props) : option Val :=
  match ps with
  | [] => None
  | (k', v) :: rest => if String.eqb k k' then Some v else get_prop k rest
  end.

Definition has_prop (k : string) (ps : Props) : bool :=
  match get_prop k ps with
  | Some _ => true
  | None => false
  end.

Fixpoint set_prop (k : string) (v : Val) (ps : Props) : Props :=
  match ps with
  | [] => [(k, v)]
  | (k', v') :: rest =>
      if String.eqb k k' then (k, v) :: rest else (k', v') :: set_prop k v rest
  end.

(** ToString, as the [+] operator applies it to its non-string operand.
    A plain object prints as [[object Object]] through the inherited
    [toString]; an own data property named [toString] shadows it, is not
    callable, and the conversion throws. *)
Definition to_string (v : Val) : Exn + string :=
  match v with
  | VUndefined => inr "undefined"
  | VNull => inr "null"
  | VBool true => inr "true"
  | VBool false => inr "false"
  | VNum z => inr (number_to_string z)
  | VNaN => inr "NaN"
  | VStr s => inr s
  | VObj ps =>
      if has_prop "toString" ps
      then inl (TypeError "Cannot convert object to primitive value")
      else inr "[object Object]"
  end.

(** *** JSON.stringify *)

Definition dquote : string := String "034"%char EmptyString.

Definition hex_digit (n : nat) : ascii :=
  nth n (list_ascii_of_string "0123456789abcdef") "0"%char.

(** QuoteJSONString, character by character. *)
Definition json_escape (c : ascii) : string :=
  let n := nat_of_ascii c in
  if (n =? 34)%nat then "\" ++ dquote
  else if (n =? 92)%nat then "\\"
  else if (n =? 8)%nat then "\b"
  else if (n =? 9)%nat then "\t"
  else if (n =? 10)%nat then "\n"
  else if (n =? 12)%nat then "\f"
  else if (n =? 13)%nat then "\r"
  else if (n <? 32)%nat then
    "\u00" ++ String (hex_digit (n / 16)) (String (hex_digit (n mod 16)) EmptyString)
  else String c EmptyString.

Fixpoint json_escape_string (s : string) : string :=
  match s with
  | EmptyString => EmptyString
  | String c rest => json_escape c ++ json_escape_string rest
  end.

Definition json_quote (s : string) : string :=
  dquote ++ json_escape_string s ++ dquote.

Fixpoint join (sep : string) (l : list string) : string :=
  match l with
  | [] => EmptyString
  | [x] => x
  | x :: rest => x ++ sep ++ join sep rest
  end.

(** SerializeJSONProperty: [None] is the [undefined] result, which drops
    the property from the enclosing object. *)
Fixpoint json_serialize (v : Val) : option string :=
  match v with
  | VUndefined => None
  | VNull => Some "null"
  | VBool true => Some "true"
  | VBool false => Some "false"
  | VNum z => Some (number_to_string z)
  | VNaN => Some "null"
  | VStr s => Some (json_quote s)
  | VObj ps =>
      let members :=
        (fix go (l : list (string * Val)) : list string :=
           match l with
           | [] => []
           | (k, x) :: rest =>
               match json_serialize x with
               | Some sx => (json_quote k ++ ":" ++ sx) :: go rest
               | None => go rest
               end
           end) ps in
      Some ("{" ++ join "," members ++ "}")
  end.

(** [JSON.stringify(a)]: a string, or [undefined] for [undefined] and for
    a function. *)
Definition JSON_stringify (a : Arg) : Val :=
  match a with
  | AFun _ => VUndefined
  | AVal v =>
      match json_serialize v with
      | Some s => VStr s
      | None => VUndefined
      end
  end.

End Js.

(** ** The resource facade *)

Module RestModel.
Import Js.

(** The transport's response object: it exposes a numeric [statusCode]
    and, optionally, a [headers] mapping. *)
Record Response : Type := mkResponse {
  statusCode : Z;
  headers : option Props
}.

(** The first argument the caller's continuation receives: the transport's
    own [err] value handed on, or an object made by [new Error()] with the
    own properties assigned to it afterwards. *)
Inductive ErrorArg : Type :=
| Passed (err : Val)
| ErrorObject (own : Props).

(** What a call of the normalizing closure amounts to: the tail call
    [return cb(err, result, response)], or the exception of applying
    something that is not a function. *)
Inductive Invocation : Type :=
| Call (f : FunRef) (err : ErrorArg) (result : Val) (response : option Response)
| Raise (e : Exn).

(** The value [wrap] returns: the caller's own value, or the closure
    created at line 53, which closes over [cb]. *)
Inductive Callback : Type :=
| Original (cb : Arg)
| Normalizer (cb : Arg).

(** External calls made by the module, in the order they happen. *)
Inductive Event : Type :=
| DebugLog (fmt : string) (obj : Val)
| GLog (fmt : string) (f : string) (v : Val)
| Assigned (f : string) (fn : FunRef)
| TransportRequest (obj : Val) (cb : Callback).

(** [debug.enabled] and the trace of external calls. *)
Record World : Type := mkWorld {
  debug_enabled : bool;
  events : list Event
}.

(** Computations that log, dispatch and may throw. *)
Definition M (A : Type) : Type := World -> World * (Exn + A).

Definition ret {A} (a : A) : M A := fun w => (w, inr a).

Definition bind {A B} (m : M A) (k : A -> M B) : M B :=
  fun w =>
    match m w with
    | (w', inr a) => k a w'
    | (w', inl e) => (w', inl e)
    end.

Definition throw {A} (e : Exn) : M A := fun w => (w, inl e).

Definition lift {A} (r : Exn + A) : M A := fun w => (w, r).

Definition emit (ev : Event) : M unit :=
  fun w => (mkWorld (debug_enabled w) (events w ++ [ev]), inr tt).

Definition get_debug_enabled : M bool := fun w => (w, inr (debug_enabled w)).

Notation "x <- m ;; k" := (bind m (fun x => k))
  (at level 61, m at next level, right associativity).
Notation "m ;;; k" := (bind m (fun _ => k))
  (at level 61, right associativity).

(** *** The constructor (lines 25-35) *)

Inductive RequestImpl : Type :=
| DefaultRequest
| CustomRequest (f : FunRef).

Record RestResource : Type := mkRestResource {
  _url : string;
  request : RequestImpl
}.

(** [s.charAt(i)]: the character at index [i], or the empty string when
    [i] is out of range. *)
Definition charAt (s : string) (i : Z) : string :=
  if i <? 0 then EmptyString
  else match String.get (Z.to_nat i) s with
       | Some c => String c EmptyString
       | None => EmptyString
       end.

(** [new RestResource(pluralModelName, baseUrl, requestFunc)].  The guard
    of line 26 parses as [(!this) instanceof RestResource]; [!this] is a
    boolean, never an instance, so its branch is not taken. *)
Definition new_RestResource (pluralModelName baseUrl : string)
    (requestFunc : option FunRef) : RestResource :=
  let url :=
    if String.eqb (charAt baseUrl (Z.of_nat (String.length baseUrl) - 1)) "/"
    then baseUrl ++ pluralModelName
    else baseUrl ++ "/" ++ pluralModelName in
  mkRestResource url
    (match requestFunc with
     | Some f => CustomRequest f
     | None => DefaultRequest
     end).

(** *** [_req] (lines 37-42) and [_request] *)

Definition _req (obj : Val) : M Val :=
  enabled <- get_debug_enabled ;;
  (if enabled : bool then emit (DebugLog "Request: %j" obj) else ret tt) ;;;
  ret obj.

(** [_request] is [RequestBuilder.prototype._request] of lib/rest-builder;
    a call to it is recorded, not interpreted. *)
Definition _request (obj : Val) (cb : Callback) : M unit :=
  emit (TransportRequest obj cb).

(** *** [wrap] (lines 50-72) *)

(** [cb(e, result, response)] *)
Definition apply_cb (cb : Arg) (e : ErrorArg) (result : Val)
    (response : option Response) : Invocation :=
  match cb with
  | AFun f => Call f e result response
  | AVal _ => Raise (TypeError "cb is not a function")
  end.

(** The body of the closure of line 53.  The test of line 55,
    [!err && response && response.statusCode >= 400], reads the status
    code only when there is a response. *)
Definition normalize (cb : Arg) (err : Val) (response : option Response)
    (body : Val) : Invocation :=
  match response with
  | Some r =>
      if negb (truthy err) && (400 <=? statusCode r) then
        let errObj : Props := [] in
        let errObj :=
          set_prop "message"
            (VStr ("HTTP code: " ++ number_to_string (statusCode r))) errObj in
        let errObj := set_prop "statusCode" (VNum (statusCode r)) errObj in
        let errObj :=
          if truthy body then set_prop "body" body errObj else errObj in
        let errObj :=
          match headers r with
          | Some h => set_prop "headers" (VObj h) errObj
          | None => errObj
          end in
        apply_cb cb (ErrorObject errObj) VNull response
      else apply_cb cb (Passed err) body response
  | None => apply_cb cb (Passed err) body response
  end.

Definition wrap (cb : Arg) : Callback :=
  if truthy_arg cb then Normalizer cb else Original cb.

(** The transport calling back [callback(err, response, body)] where
    [callback] is the closure that [wrap] made. *)
Definition invoke (callback : Callback) (err : Val)
    (response : option Response) (body : Val) : option Invocation :=
  match callback with
  | Normalizer cb => Some (normalize cb err response body)
  | Original _ => None
  end.

(** *** The CRUD methods (lines 80-202) *)

(** [options && JSON.stringify(options)]: a falsy [options] is the value
    of the conjunction itself. *)
Definition options_header (options : Arg) : Val :=
  match options with
  | AVal v => if truthy v then JSON_stringify options else v
  | AFun _ => JSON_stringify options
  end.

Definition create (this : RestResource) (body : Val) (options cb : Arg)
    : M unit :=
  obj <- _req (VObj [
    ("method", VStr "POST");
    ("uri", VStr (_url this));
    ("json", VBool true);
    ("body", body);
    ("headers", VObj [("options", options_header options)])
  ]) ;;
  _request obj (wrap cb).

Definition update (this : RestResource) (id body : Val) (options cb : Arg)
    : M unit :=
  id_str <- lift (to_string id) ;;
  obj <- _req (VObj [
    ("method", VStr "PUT");
    ("uri", VStr ((_url this ++ "/") ++ id_str));
    ("json", VBool true);
    ("body", body);
    ("headers", VObj [("options", options_header options)])
  ]) ;;
  _request obj (wrap cb).

Definition delete (this : RestResource) (id : Val) (options cb : Arg)
    : M unit :=
  id_str <- lift (to_string id) ;;
  obj <- _req (VObj [
    ("method", VStr "DELETE");
    ("uri", VStr ((_url this ++ "/") ++ id_str));
    ("json", VBool true);
    ("headers", VObj [("options", options_header options)])
  ]) ;;
  _request obj (wrap cb).

Definition deleteAll (this : RestResource) (options cb : Arg) : M unit :=
  obj <- _req (VObj [
    ("method", VStr "DELETE");
    ("uri", VStr (_url this));
    ("json", VBool true);
    ("headers", VObj [("options", options_header options)])
  ]) ;;
  _request obj (wrap cb).

Definition find (this : RestResource) (id filter : Val) (options cb : Arg)
    : M unit :=
  suffix <- (if truthy id
             then id_str <- lift (to_string id) ;; ret ("/" ++ id_str)
             else ret EmptyString) ;;
  obj <- _req (VObj [
    ("method", VStr "GET");
    ("uri", VStr (_url this ++ suffix));
    ("json", VBool true);
    ("qs", VObj [("filter", filter)]);
    ("headers", VObj [("options", options_header options)])
  ]) ;;
  _request obj (wrap cb).

Definition query (this : RestResource) (q : Val) (options cb : Arg)
    : M unit :=
  let q := if truthy q then q else VObj [] in
  let '(cb, q) :=
    if negb (truthy_arg cb) && is_function options
    then (options, VObj [])
    else (cb, q) in
  obj <- _req (VObj [
    ("method", VStr "GET");
    ("uri", VStr (_url this));
    ("json", VBool true);
    ("qs", VObj [("filter", q)]);
    ("headers", VObj [("options", options_header options)])
  ]) ;;
  _request obj (wrap cb).

Definition all := query.

(** A call of one of the CRUD methods with its arguments. *)
Inductive MethodCall : Type :=
| CallCreate (body : Val) (options cb : Arg)
| CallUpdate (id body : Val) (options cb : Arg)
| CallDelete (id : Val) (options cb : Arg)
| CallDeleteAll (options cb : Arg)
| CallFind (id filter : Val) (options cb : Arg)
| CallQuery (q : Val) (options cb : Arg).

Definition perform (this : RestResource) (c : MethodCall) : M unit :=
  match c with
  | CallCreate body options cb => create this body options cb
  | CallUpdate id body options cb => update this id body options cb
  | CallDelete id options cb => delete this id options cb
  | CallDeleteAll options cb => deleteAll this options cb
  | CallFind id filter options cb => find this id filter options cb
  | CallQuery q options cb => query this q options cb
  end.

Definition options_of (c : MethodCall) : Arg :=
  match c with
  | CallCreate _ options _ | CallUpdate _ _ options _
  | CallDelete _ options _ | CallDeleteAll options _
  | CallFind _ _ options _ | CallQuery _ options _ => options
  end.

(** The descriptors handed to the transport, and the callbacks handed
    with them, in a trace. *)
Fixpoint dispatched (evs : list Event) : list (Val * Callback) :=
  match evs with
  | [] => []
  | TransportRequest obj cb :: rest => (obj, cb) :: dispatched rest
  | _ :: rest => dispatched rest
  end.

(** Running a computation from a world with an empty trace. *)
Definition run {A} (debug_on : bool) (m : M A) : list Event * (Exn + A) :=
  let '(w, r) := m (mkWorld debug_on []) in (events w, r).

(** [obj.k] on a descriptor, [undefined] when the property is not there. *)
Definition field (k : string) (obj : Val) : Val :=
  match obj with
  | VObj ps =>
      match get_prop k ps with
      | Some v => v
      | None => VUndefined
      end
  | _ => VUndefined
  end.

(** [k in obj] for own properties. *)
Definition has_field (k : string) (obj : Val) : bool :=
  match obj with
  | VObj ps => has_prop k ps
  | _ => false
  end.

(** *** [defineFunctions] (lines 204-233) *)

(** The document loaded from rest-crud.json: its [debug] flag and its
    array of operation entries. *)
Record Spec : Type := mkSpec {
  debug : Val;
  operations : list Val
}.

(** [var requestFunc = this.request] at module level, where [this] is the
    initial, empty exports object. *)
Definition requestFunc : Val := VUndefined.

(** [v.k] for a property name that no built-in prototype defines. *)
Definition member (k : string) (v : Val) : Exn + Val :=
  match v with
  | VUndefined | VNull =>
      inl (TypeError ("Cannot read properties of undefined or null: " ++ k))
  | _ => inr (field k v)
  end.

(** [g.f(fmt, v)] for a format that ends in its one [%j] directive:
    [prefix] is the text before the directive. *)
Definition format_j (prefix : string) (v : Val) : string :=
  prefix ++ match json_serialize v with
            | Some s => s
            | None => "undefined"
            end.

Definition missing_template (op : Val) : Exn :=
  Error (format_j "The operation template is missing: " op).

Fixpoint forEach {A} (f : A -> M unit) (l : list A) : M unit :=
  match l with
  | [] => ret tt
  | x :: rest => f x ;;; forEach f rest
  end.

Section DefineFunctions.

(** The interface of lib/rest-builder that [defineFunctions] uses:
    [RequestBuilder.compile], [builder.debug] and [builder.operation]. *)
Variable Builder : Type.
Variable compile : Val -> Val -> Exn + Builder.
Variable builder_debug : Builder -> Val -> Exn + unit.
Variable builder_operation : Builder -> Val -> Exn + FunRef.

(** One turn of the [for (var f in functions)] loop. *)
Definition mix_in (spec : Spec) (builder : Builder) (f : string)
    (v : Val) : M FunRef :=
  (if truthy (debug spec)
   then emit (GLog "Mixing in method: %s %s" f v)
   else ret tt) ;;;
  lift (builder_operation builder v).

(** [if (functions) { for (var f in functions) ... }].  A plain object
    is walked key by key; a non-empty string enumerates its indices and
    the assignment to the first of them throws in strict mode; the
    other truthy primitives enumerate nothing. *)
Definition bind_functions (spec : Spec) (builder : Builder)
    (functions : Val) : M unit :=
  if truthy functions then
    match functions with
    | VObj ps =>
        forEach (fun '(f, v) =>
                   fn <- mix_in spec builder f v ;;
                   emit (Assigned f fn)) ps
    | VStr (String c _) =>
        mix_in spec builder "0" (VStr (String c EmptyString)) ;;;
        throw (TypeError "Cannot assign to read only property '0' of string")
    | _ => ret tt
    end
  else ret tt.

(** The callback of [spec.operations.forEach]. *)
Definition define_operation (spec : Spec) (op : Val) : M unit :=
  template <- lift (member "template" op) ;;
  (if negb (truthy template)
   then throw (missing_template op)
   else ret tt) ;;;
  builder <- lift (compile template requestFunc) ;;
  lift (builder_debug builder (debug spec)) ;;;
  functions <- lift (member "functions" op) ;;
  bind_functions spec builder functions.

(** The outer [functions] is never assigned (the callback declares its
    own), so the function returns the empty object it started with. *)
Definition defineFunctions (spec : Spec) : M Val :=
  let functions := VObj [] in
  forEach (define_operation spec) (operations spec) ;;;
  ret functions.

End DefineFunctions.

End RestModel.

(** ** Properties *)

Import Js RestModel.

(** *** Auxiliary definitions *)

(** The last character, read the way line 29 reads it. *)
Definition last_char (s : string) : string :=
  charAt s (Z.of_nat (String.length s) - 1).

(** The decision rule of the normalizer as one predicate:
    [!err && response && response.statusCode >= 400]. *)
Definition is_http_error (err : Val) (response : option Response) : bool :=
  negb (truthy err) &&
  match response with
  | Some r => 400 <=? statusCode r
  | None => false
  end.

(** The own properties of the error that lines 56 to 64 build. *)
Definition http_error_props (r : Response) (body : Val) : Props :=
  ([("message", VStr ("HTTP code: " ++ number_to_string (statusCode r))%string);
    ("statusCode", VNum (statusCode r))]
   ++ (if truthy body then [("body", body)] else [])
   ++ match headers r with
      | Some h => [("headers", VObj h)]
      | None => []
      end)%list.

(** ToBoolean of the continuation's first argument. *)
Definition truthy_error (e : ErrorArg) : bool :=
  match e with
  | Passed v => truthy v
  | ErrorObject _ => true
  end.

(** The continuation a method call designates: the [cb] argument, or for
    [query] the function in the options slot when [cb] is absent. *)
Definition continuation_of (c : MethodCall) : Arg :=
  match c with
  | CallQuery _ options cb =>
      if negb (truthy_arg cb) && is_function options then options else cb
  | CallCreate _ _ cb | CallUpdate _ _ _ cb | CallDelete _ _ cb
  | CallDeleteAll _ cb | CallFind _ _ _ cb => cb
  end.

(** The line that [_req] logs when [debug.enabled] is set. *)
Definition debug_line (debug_on : bool) (obj : Val) : list Event :=
  if debug_on then [DebugLog "Request: %j" obj] else [].

(** The [filter] and the callback of each request in a trace. *)
Definition filters (evs : list Event) : list (Val * Callback) :=
  map (fun dc => (field "filter" (field "qs" (fst dc)), snd dc))
      (dispatched evs).

(** A resource, a call and the descriptor the call dispatches, used as
    concrete instances below. *)
Definition sample_resource : RestResource :=
  new_RestResource "widgets" "http://api.example.com" None.

Definition sample_call : MethodCall :=
  CallDeleteAll (AVal (VObj [("user", VNum 7)])) (AFun 1%nat).

Definition sample_descriptor : Val :=
  VObj [("method", VStr "DELETE");
        ("uri", VStr "http://api.example.com/widgets");
        ("json", VBool true);
        ("headers", VObj [("options", VStr ("{" ++ json_quote "user" ++ ":7}"))])].

(** An operation spec whose second entry has no template. *)
Definition sample_operation : Val :=
  VObj [("template", VObj [("method", VStr "GET"); ("url", VStr "/widgets")]);
        ("functions", VObj [("find", VStr "id")])].

Definition sample_spec : Spec :=
  mkSpec (VBool false) [sample_operation; VObj [("functions", VObj [])]].

(** The id that a method call converts to a string for its [uri]: the id
    of [update] and [delete], and the id of [find] when it is truthy. *)
Definition item_id (c : MethodCall) : option Val :=
  match c with
  | CallUpdate id _ _ _ | CallDelete id _ _ => Some id
  | CallFind id _ _ _ => if truthy id then Some id else None
  | CallCreate _ _ _ | CallDeleteAll _ _ | CallQuery _ _ _ => None
  end.

(** The HTTP verb written in each method's object literal. *)
Definition verb_of (c : MethodCall) : string :=
  match c with
  | CallCreate _ _ _ => "POST"
  | CallUpdate _ _ _ _ => "PUT"
  | CallDelete _ _ _ | CallDeleteAll _ _ => "DELETE"
  | CallFind _ _ _ _ | CallQuery _ _ _ => "GET"
  end.

(** The body argument, for the methods that take one. *)
Definition body_of (c : MethodCall) : option Val :=
  match c with
  | CallCreate body _ _ | CallUpdate _ body _ _ => Some body
  | CallDelete _ _ _ | CallDeleteAll _ _
  | CallFind _ _ _ _ | CallQuery _ _ _ => None
  end.

(** What a method call does, given the descriptor it builds or the
    exception of building it. *)
Definition outcome (debug_on : bool) (c : MethodCall) (r : Exn + Val)
    : list Event * (Exn + unit) :=
  match r with
  | inl e => ([], inl e)
  | inr d =>
      ((debug_line debug_on d
        ++ [TransportRequest d (wrap (continuation_of c))])%list, inr tt)
  end.


(** The events of binding the functions [fs] of one entry, each to the
    function that [operation] gives for its argument spec. *)
Definition binding_events (debug_on : bool) (operation : Val -> FunRef)
    (fs : Props) : list Event :=
  flat_map (fun '(f, v) =>
              ((if debug_on then [GLog "Mixing in method: %s %s" f v] else [])
               ++ [Assigned f (operation v)])%list) fs.

(** An [update] of item 42 and the descriptor it dispatches. *)
Definition sample_update : MethodCall :=
  CallUpdate (VNum 42) (VObj [("name", VStr "x")]) (AVal VUndefined)
    (AFun 1%nat).

Definition sample_update_descriptor : Val :=
  VObj [("method", VStr "PUT");
        ("uri", VStr "http://api.example.com/widgets/42");
        ("json", VBool true);
        ("body", VObj [("name", VStr "x")]);
        ("headers", VObj [("options", VUndefined)])].

(** A [find] of item 42 with a filter and the descriptor it dispatches. *)
Definition sample_find_descriptor : Val :=
  VObj [("method", VStr "GET");
        ("uri", VStr "http://api.example.com/widgets/42");
        ("json", VBool true);
        ("qs", VObj [("filter", VObj [("fields", VStr "name")])]);
        ("headers", VObj [("options", VUndefined)])].


(** A builder interface for concrete runs: [compile] answers the template
    itself, and every function compiles to the function number 1. *)
Definition sample_compile (template _ : Val) : Exn + Val := inr template.

Definition sample_builder_debug (_ _ : Val) : Exn + unit := inr tt.

Definition sample_builder_operation (_ _ : Val) : Exn + FunRef := inr 1%nat.

(** *** The model on concrete inputs *)

Example url_with_trailing_slash :
  _url (new_RestResource "widgets" "http://api.example.com/" None)
  = "http://api.example.com/widgets".
Proof. reflexivity. Qed.

Example url_without_trailing_slash :
  _url sample_resource = "http://api.example.com/widgets".
Proof. reflexivity. Qed.

Example url_of_empty_base :
  _url (new_RestResource "widgets" EmptyString None) = "/widgets".
Proof. reflexivity. Qed.

Example stringify_skips_undefined :
  JSON_stringify (AVal (VObj [("user", VNum 7); ("tmp", VUndefined)]))
  = VStr ("{" ++ json_quote "user" ++ ":7}").
Proof. reflexivity. Qed.

Example deleteAll_descriptor :
  run true (deleteAll sample_resource (AVal VUndefined) (AFun 1%nat))
  = (let d := VObj [("method", VStr "DELETE");
                    ("uri", VStr "http://api.example.com/widgets");
                    ("json", VBool true);
                    ("headers", VObj [("options", VUndefined)])] in
     [DebugLog "Request: %j" d; TransportRequest d (Normalizer (AFun 1%nat))],
     inr tt).
Proof. reflexivity. Qed.

Example not_found_is_an_error :
  normalize (AFun 1%nat) VNull (Some (mkResponse 404 None)) VUndefined
  = Call 1%nat
      (ErrorObject [("message", VStr "HTTP code: 404"); ("statusCode", VNum 404)])
      VNull (Some (mkResponse 404 None)).
Proof. reflexivity. Qed.

Example object_id_with_own_toString :
  run false (delete sample_resource (VObj [("toString", VNum 1)])
               (AVal VUndefined) (AFun 1%nat))
  = ([], inl (TypeError "Cannot convert object to primitive value")).
Proof. reflexivity. Qed.

(** *** Strings *)

Lemma append_empty_r (s : string) : s ++ EmptyString = s.
Proof.
  induction s as [|c s IH]; simpl; [reflexivity | now rewrite IH].
Qed.

Lemma append_assoc (a b c : string) : (a ++ b) ++ c = a ++ (b ++ c).
Proof.
  induction a as [|x a IH]; simpl; [reflexivity | now rewrite IH].
Qed.

Lemma last_char_cons (c : ascii) (s : string) :
  s <> EmptyString -> last_char (String c s) = last_char s.
Proof.
  intros Hs. destruct s as [|d s]; [congruence|].
  unfold last_char, charAt.
  assert (H1 : Z.of_nat (String.length (String c (String d s))) - 1
               = Z.of_nat (S (String.length s))) by (simpl String.length; lia).
  assert (H2 : Z.of_nat (String.length (String d s)) - 1
               = Z.of_nat (String.length s)) by (simpl String.length; lia).
  rewrite H1, H2.
  destruct (Z.ltb_spec (Z.of_nat (S (String.length s))) 0); [lia|].
  destruct (Z.ltb_spec (Z.of_nat (String.length s)) 0); [lia|].
  rewrite !Nat2Z.id. reflexivity.
Qed.

Lemma last_char_snoc (b : string) (c : ascii) :
  last_char (b ++ String c EmptyString) = String c EmptyString.
Proof.
  induction b as [|x b IH].
  - reflexivity.
  - simpl append. rewrite last_char_cons; [exact IH|].
    destruct b; simpl; discriminate.
Qed.

Lemma last_char_inv (s : string) (c : ascii) :
  last_char s = String c EmptyString ->
  exists b, s = b ++ String c EmptyString.
Proof.
  induction s as [|x s IH]; intros H.
  - discriminate H.
  - destruct s as [|y s].
    + exists EmptyString. unfold last_char, charAt in H. simpl in H.
      now inversion H.
    + rewrite last_char_cons in H by discriminate.
      destruct (IH H) as [b Hb]. exists (String x b). simpl. now rewrite <- Hb.
Qed.

(** *** The response normalizer *)

Lemma is_http_error_iff (err : Val) (response : option Response) :
  is_http_error err response = true <->
  truthy err = false /\ exists r, response = Some r /\ 400 <= statusCode r.
Proof.
  unfold is_http_error. rewrite andb_true_iff, negb_true_iff. split.
  - intros [He Hr]. split; [exact He|].
    destruct response as [r|]; [|discriminate].
    exists r. split; [reflexivity | now apply Z.leb_le].
  - intros [He [r [-> Hr]]]. split; [exact He | now apply Z.leb_le].
Qed.

Lemma normalize_http_error (cb : Arg) (err : Val) (r : Response) (body : Val) :
  is_http_error err (Some r) = true ->
  normalize cb err (Some r) body
  = apply_cb cb (ErrorObject (http_error_props r body)) VNull (Some r).
Proof.
  unfold is_http_error, normalize, http_error_props. intros ->.
  destruct (truthy body), (headers r); reflexivity.
Qed.

Lemma normalize_pass_through (cb : Arg) (err : Val)
    (response : option Response) (body : Val) :
  is_http_error err response = false ->
  normalize cb err response body = apply_cb cb (Passed err) body response.
Proof.
  unfold is_http_error, normalize. destruct response as [r|]; [|reflexivity].
  now intros ->.
Qed.

Lemma pass_through_cases (err : Val) (response : option Response) :
  is_http_error err response = false <->
  truthy err = true \/ response = None \/
  exists r, response = Some r /\ statusCode r < 400.
Proof.
  unfold is_http_error. split.
  - destruct (truthy err); [now left|]. right.
    destruct response as [r|]; [|now left]. right.
    exists r. split; [reflexivity|]. simpl in H. now apply Z.leb_gt.
  - intros [-> | [-> | [r [-> Hr]]]]; [reflexivity | apply andb_false_r |].
    apply andb_false_iff. right. now apply Z.leb_gt.
Qed.

Lemma invoke_wrap_function (f : FunRef) (err : Val)
    (response : option Response) (body : Val) :
  invoke (wrap (AFun f)) err response body
  = Some (normalize (AFun f) err response body).
Proof. reflexivity. Qed.

(** C1 (as amended).  When the transport reports no error and a response
    whose status code is 400 or more, the function returned by [wrap(cb)]
    calls [cb] once, with a new error object, [null] and the response.
    The error's [message] is ["HTTP code: "] followed by the status code,
    its [statusCode] is the numeric code, it has a [body] property exactly
    when the body argument is truthy (then holding that body), and a
    [headers] property exactly when the response has headers. *)
Theorem wrap_http_error (f : FunRef) (err : Val) (r : Response) (body : Val) :
  truthy err = false ->
  400 <= statusCode r ->
  exists errObj,
    invoke (wrap (AFun f)) err (Some r) body
    = Some (Call f (ErrorObject errObj) VNull (Some r))
    /\ get_prop "message" errObj
       = Some (VStr ("HTTP code: " ++ number_to_string (statusCode r)))
    /\ get_prop "statusCode" errObj = Some (VNum (statusCode r))
    /\ get_prop "body" errObj = (if truthy body then Some body else None)
    /\ get_prop "headers" errObj = option_map VObj (headers r).
Proof.
  intros Herr Hcode.
  assert (Hrule : is_http_error err (Some r) = true).
  { apply is_http_error_iff. split; [exact Herr|]. now exists r. }
  exists (http_error_props r body).
  rewrite invoke_wrap_function, (normalize_http_error _ _ _ _ Hrule).
  unfold http_error_props.
  destruct (truthy body), (headers r); repeat split; reflexivity.
Qed.

Lemma wrap_http_error_witness :
  exists errObj,
    invoke (wrap (AFun 1%nat)) VNull
      (Some (mkResponse 404 (Some [("content-type", VStr "text/plain")])))
      (VStr "Not Found")
    = Some (Call 1%nat (ErrorObject errObj) VNull
              (Some (mkResponse 404 (Some [("content-type", VStr "text/plain")]))))
    /\ get_prop "message" errObj = Some (VStr "HTTP code: 404")
    /\ get_prop "statusCode" errObj = Some (VNum 404)
    /\ get_prop "body" errObj = Some (VStr "Not Found")
    /\ get_prop "headers" errObj
       = Some (VObj [("content-type", VStr "text/plain")]).
Proof.
  apply (wrap_http_error 1%nat VNull
           (mkResponse 404 (Some [("content-type", VStr "text/plain")]))
           (VStr "Not Found")).
  - reflexivity.
  - simpl. lia.
Defined.

(** C1 as stated fails: a 500 response whose parsed body is the JSON value
    [false] has a body that is present, yet the error object delivered to
    the continuation carries no [body] property. *)
Lemma wrap_http_error_present_body_counterexample :
  present (VBool false) = true
  /\ invoke (wrap (AFun 1%nat)) VNull (Some (mkResponse 500 None)) (VBool false)
     = Some (Call 1%nat
               (ErrorObject [("message", VStr "HTTP code: 500");
                             ("statusCode", VNum 500)])
               VNull (Some (mkResponse 500 None)))
  /\ has_prop "body" [("message", VStr "HTTP code: 500");
                      ("statusCode", VNum 500)] = false.
Proof.
  repeat split.
Qed.

(** C2.  When the transport error is truthy, or there is no response, or
    the status code is below 400, the function returned by [wrap(cb)]
    calls [cb] with the transport's error value, the body and the response
    as they came; with a [null] error and a status below 400 this is
    [(null, body, response)]. *)
Theorem wrap_pass_through (f : FunRef) (err : Val)
    (response : option Response) (body : Val) :
  truthy err = true \/ response = None \/
    (exists r, response = Some r /\ statusCode r < 400) ->
  invoke (wrap (AFun f)) err response body
  = Some (Call f (Passed err) body response)
  /\ (forall r, err = VNull -> response = Some r -> statusCode r < 400 ->
      invoke (wrap (AFun f)) VNull (Some r) body
      = Some (Call f (Passed VNull) body (Some r))).
Proof.
  intros Hcase. apply pass_through_cases in Hcase.
  split.
  - now rewrite invoke_wrap_function, normalize_pass_through.
  - intros r -> -> _. now rewrite invoke_wrap_function, normalize_pass_through.
Qed.

Lemma wrap_pass_through_witness :
  invoke (wrap (AFun 1%nat)) VNull (Some (mkResponse 200 None))
    (VObj [("id", VNum 7)])
  = Some (Call 1%nat (Passed VNull) (VObj [("id", VNum 7)])
            (Some (mkResponse 200 None))).
Proof.
  refine (proj1 (wrap_pass_through 1%nat VNull (Some (mkResponse 200 None))
                   (VObj [("id", VNum 7)]) _)).
  right. right. exists (mkResponse 200 None). split; [reflexivity | simpl; lia].
Defined.

(** C3 (as amended).  The function returned by [wrap(cb)] always calls
    [cb] once, with the response as third argument.  If the error it
    delivers is falsy, the result is the body; if the transport error is
    falsy and the delivered error is not, the error is the synthesized one
    and the result is [null]; and a truthy transport error [e] is
    delivered as [(e, body, response)], the body unchanged, whatever the
    status code. *)
Theorem wrap_envelope (f : FunRef) (err : Val) (response : option Response)
    (body : Val) :
  exists e result,
    invoke (wrap (AFun f)) err response body = Some (Call f e result response)
    /\ (truthy_error e = false -> e = Passed err /\ result = body)
    /\ (truthy err = false -> truthy_error e = true ->
        result = VNull /\ exists own, e = ErrorObject own)
    /\ (truthy err = true -> e = Passed err /\ result = body).
Proof.
  rewrite invoke_wrap_function.
  destruct (is_http_error err response) eqn:Hrule.
  - pose proof Hrule as Hr. apply is_http_error_iff in Hr.
    destruct Hr as [Herr [r [-> Hcode]]].
    exists (ErrorObject (http_error_props r body)), VNull.
    rewrite (normalize_http_error _ _ _ _ Hrule).
    split; [reflexivity|]. split; [simpl; discriminate|]. split.
    + intros _ _. split; [reflexivity|]. now exists (http_error_props r body).
    + congruence.
  - exists (Passed err), body.
    rewrite (normalize_pass_through _ _ _ _ Hrule).
    split; [reflexivity|]. split; [now split|]. split.
    + simpl. congruence.
    + now split.
Qed.

(** C3 as stated fails: a truthy transport error that arrives together
    with a body is delivered with that body as the result, not [null]. *)
Lemma wrap_envelope_transport_error_counterexample :
  truthy (VObj [("code", VStr "ECONNRESET")]) = true
  /\ invoke (wrap (AFun 1%nat)) (VObj [("code", VStr "ECONNRESET")])
       (Some (mkResponse 502 None)) (VStr "Bad Gateway")
     = Some (Call 1%nat (Passed (VObj [("code", VStr "ECONNRESET")]))
               (VStr "Bad Gateway") (Some (mkResponse 502 None)))
  /\ VStr "Bad Gateway" <> VNull.
Proof.
  repeat split. discriminate.
Qed.

(** *** Running the methods *)

Lemma run_send (debug_on : bool) (obj : Val) (cb : Callback) :
  run debug_on (obj' <- _req obj ;; _request obj' cb)
  = ((debug_line debug_on obj ++ [TransportRequest obj cb])%list, inr tt).
Proof. destruct debug_on; reflexivity. Qed.

Lemma run_lift_bind {A B} (debug_on : bool) (r : Exn + A) (k : A -> M B) :
  run debug_on (x <- lift r ;; k x)
  = match r with
    | inl e => ([], inl e)
    | inr a => run debug_on (k a)
    end.
Proof. destruct r; reflexivity. Qed.

Lemma run_ret_bind {A B} (debug_on : bool) (a : A) (k : A -> M B) :
  run debug_on (x <- ret a ;; k x) = run debug_on (k a).
Proof. reflexivity. Qed.

Lemma dispatched_send (debug_on : bool) (obj : Val) (cb : Callback) :
  dispatched (debug_line debug_on obj ++ [TransportRequest obj cb])
  = [(obj, cb)].
Proof. destruct debug_on; reflexivity. Qed.

(** The effective continuation and query object of [query], after the
    test of line 186. *)
Lemma run_query (debug_on : bool) (this : RestResource) (q : Val)
    (options cb : Arg) :
  exists obj cb',
    run debug_on (query this q options cb)
    = ((debug_line debug_on obj ++ [TransportRequest obj (wrap cb')])%list,
       inr tt)
    /\ field "method" obj = VStr "GET"
    /\ field "uri" obj = VStr (_url this)
    /\ field "headers" obj = VObj [("options", options_header options)]
    /\ (cb', field "qs" obj)
       = if negb (truthy_arg cb) && is_function options
         then (options, VObj [("filter", VObj [])])
         else (cb, VObj [("filter", if truthy q then q else VObj [])]).
Proof.
  unfold query.
  destruct (negb (truthy_arg cb) && is_function options);
    eexists; eexists; (split; [apply run_send|]); repeat split.
Qed.

(** Every dispatched descriptor has the collection URL as the start of its
    [uri] and carries an [options] header; the callback that goes with it
    is [wrap] of the call's continuation. *)
Lemma dispatched_perform (this : RestResource) (c : MethodCall)
    (debug_on : bool) (d : Val) (cb : Callback) :
  In (d, cb) (dispatched (fst (run debug_on (perform this c)))) ->
  (exists s, field "uri" d = VStr (_url this ++ s))
  /\ field "headers" d = VObj [("options", options_header (options_of c))]
  /\ cb = wrap (continuation_of c).
Proof.
  destruct c as [body options k | id body options k | id options k
                | options k | id filter options k | q options k];
    simpl perform; simpl options_of; simpl continuation_of.
  - unfold create. rewrite run_send. simpl fst. rewrite dispatched_send.
    intros [H|[]]. inversion H; subst. split; [|split; reflexivity].
    exists EmptyString. now rewrite append_empty_r.
  - unfold update. rewrite run_lift_bind.
    destruct (to_string id) as [e|s]; [intros []|].
    rewrite run_send. simpl fst. rewrite dispatched_send.
    intros [H|[]]. inversion H; subst. split; [|split; reflexivity].
    exists ("/" ++ s). simpl field. now rewrite append_assoc.
  - unfold delete. rewrite run_lift_bind.
    destruct (to_string id) as [e|s]; [intros []|].
    rewrite run_send. simpl fst. rewrite dispatched_send.
    intros [H|[]]. inversion H; subst. split; [|split; reflexivity].
    exists ("/" ++ s). simpl field. now rewrite append_assoc.
  - unfold deleteAll. rewrite run_send. simpl fst. rewrite dispatched_send.
    intros [H|[]]. inversion H; subst. split; [|split; reflexivity].
    exists EmptyString. now rewrite append_empty_r.
  - unfold find, run, bind, lift, ret, _req, _request, emit, get_debug_enabled.
    destruct (truthy id); [destruct (to_string id) as [e|s]|];
      destruct debug_on; simpl; try (intros []; fail);
      intros [H|[]]; inversion H; subst; (split; [|split; reflexivity]).
    + now exists ("/" ++ s).
    + now exists ("/" ++ s).
    + now exists EmptyString.
    + now exists EmptyString.
  - destruct (run_query debug_on this q options k)
      as [obj [cb' [Hrun [_ [Huri [Hhead Hcb]]]]]].
    rewrite Hrun. simpl fst. rewrite dispatched_send.
    intros [H|[]]. inversion H; subst. split; [|split; [exact Hhead|]].
    + exists EmptyString. now rewrite append_empty_r.
    + destruct (negb (truthy_arg k) && is_function options);
        now inversion Hcb.
Qed.

(** C4.  For an absent (falsy) continuation [wrap] makes no closure: it
    returns the caller's value as it is, so no normalizing code of this
    module runs when the transport calls back; and a method call whose
    continuation is absent hands the transport that same value, whatever
    the arguments and the debug setting. *)
Theorem wrap_absent_callback (cb : Arg) :
  truthy_arg cb = false ->
  wrap cb = Original cb
  /\ (forall err response body, invoke (wrap cb) err response body = None)
  /\ (forall this c debug_on d k,
        continuation_of c = cb ->
        In (d, k) (dispatched (fst (run debug_on (perform this c)))) ->
        k = Original cb).
Proof.
  intros Hcb.
  assert (Hwrap : wrap cb = Original cb) by (unfold wrap; now rewrite Hcb).
  split; [exact Hwrap|]. split.
  - intros err response body. now rewrite Hwrap.
  - intros this c debug_on d k Hc Hin.
    apply dispatched_perform in Hin. destruct Hin as [_ [_ Hk]].
    now rewrite Hk, Hc.
Qed.

Lemma wrap_absent_callback_witness :
  wrap (AVal VUndefined) = Original (AVal VUndefined)
  /\ (forall err response body,
        invoke (wrap (AVal VUndefined)) err response body = None)
  /\ (forall this c debug_on d k,
        continuation_of c = AVal VUndefined ->
        In (d, k) (dispatched (fst (run debug_on (perform this c)))) ->
        k = Original (AVal VUndefined)).
Proof.
  apply (wrap_absent_callback (AVal VUndefined)). reflexivity.
Defined.

Lemma to_string_error (v : Val) (e : Exn) :
  to_string v = inl e -> exn_name e = "TypeError".
Proof.
  destruct v as [| |[|]| | | |ps]; simpl; try discriminate.
  destruct (has_prop "toString" ps); [|discriminate].
  intros H. inversion H. reflexivity.
Qed.

Lemma truthy_serializes (v : Val) :
  truthy v = true -> exists s, json_serialize v = Some s.
Proof.
  destruct v as [| |[|]| | | |ps]; simpl; try discriminate; eauto.
Qed.

(** *** The CRUD methods *)

(** For any query object the two call forms build the same [method],
    [uri] and [headers] and wrap the same continuation; the shorthand
    form sends the empty filter, the full form the query object. *)
Lemma query_shorthand_general (this : RestResource) (q : Val) (f : FunRef)
    (debug_on : bool) :
  run debug_on (query this q (AFun f) (AVal VUndefined))
  = run debug_on (query this (VObj []) (AVal VUndefined) (AFun f))
  /\ filters (fst (run debug_on (query this q (AVal VUndefined) (AFun f))))
     = [(if truthy q then q else VObj [], Normalizer (AFun f))].
Proof.
  unfold query, filters. simpl.
  rewrite !run_send. simpl fst. rewrite dispatched_send. split; reflexivity.
Qed.

(** C5.  The code at [query({name: 'x'}, cb)] and at
    [query({name: 'x'}, undefined, cb)]: the shorthand form asks for the
    filter [{}], the full form for [{name: 'x'}], so the two calls are not
    equivalent. *)
Theorem query_shorthand_discards_query :
  let this := new_RestResource "widgets" "http://api.example.com" None in
  let q := VObj [("name", VStr "x")] in
  filters (fst (run false (query this q (AFun 1%nat) (AVal VUndefined))))
  = [(VObj [], Normalizer (AFun 1%nat))]
  /\ filters (fst (run false (query this q (AVal VUndefined) (AFun 1%nat))))
     = [(q, Normalizer (AFun 1%nat))]
  /\ run false (query this q (AFun 1%nat) (AVal VUndefined))
     <> run false (query this q (AVal VUndefined) (AFun 1%nat)).
Proof.
  repeat split. discriminate.
Qed.

(** C6.  With a falsy id, whatever the filter and the options, [find]
    dispatches one descriptor: its [uri] is the collection URL with
    nothing after it, its [method] is GET and its [qs.filter] is the
    filter it was given. *)
Theorem find_falsy_id (this : RestResource) (id filter : Val)
    (options cb : Arg) (debug_on : bool) :
  truthy id = false ->
  exists d,
    run debug_on (find this id filter options cb)
    = ((debug_line debug_on d ++ [TransportRequest d (wrap cb)])%list, inr tt)
    /\ field "uri" d = VStr (_url this)
    /\ field "method" d = VStr "GET"
    /\ field "filter" (field "qs" d) = filter.
Proof.
  intros Hid. unfold find. rewrite Hid, run_ret_bind, run_send.
  eexists. split; [reflexivity|]. simpl. now rewrite append_empty_r.
Qed.

Lemma find_falsy_id_witness :
  exists d,
    run false
      (find (new_RestResource "widgets" "http://api.example.com/" None)
         (VNum 0) (VObj [("where", VObj [("name", VStr "x")])])
         (AVal VUndefined) (AFun 1%nat))
    = ((debug_line false d
        ++ [TransportRequest d (wrap (AFun 1%nat))])%list, inr tt)
    /\ field "uri" d
       = VStr (_url (new_RestResource "widgets" "http://api.example.com/" None))
    /\ field "method" d = VStr "GET"
    /\ field "filter" (field "qs" d)
       = VObj [("where", VObj [("name", VStr "x")])].
Proof.
  apply (find_falsy_id (new_RestResource "widgets" "http://api.example.com/" None)
           (VNum 0) (VObj [("where", VObj [("name", VStr "x")])])
           (AVal VUndefined) (AFun 1%nat) false).
  reflexivity.
Defined.

(** C7 (as amended).  Every descriptor that a CRUD method dispatches has a
    [headers] object with exactly one key, [options].  Its value is the
    JSON text of the options when they are a truthy value, the falsy
    options value itself otherwise ([undefined] when the argument was
    left out), and [undefined] when a function stands in the options
    slot. *)
Theorem options_header_carried (this : RestResource) (c : MethodCall)
    (debug_on : bool) (d : Val) (cb : Callback) :
  In (d, cb) (dispatched (fst (run debug_on (perform this c)))) ->
  exists h,
    field "headers" d = VObj [("options", h)]
    /\ has_field "options" (field "headers" d) = true
    /\ (forall v, options_of c = AVal v -> truthy v = true ->
        exists s, json_serialize v = Some s /\ h = VStr s)
    /\ (forall v, options_of c = AVal v -> truthy v = false -> h = v)
    /\ (forall g, options_of c = AFun g -> h = VUndefined).
Proof.
  intros Hin. apply dispatched_perform in Hin. destruct Hin as [_ [Hh _]].
  exists (options_header (options_of c)). rewrite Hh.
  split; [reflexivity|]. split; [reflexivity|].
  split; [|split].
  - intros v -> Hv. destruct (truthy_serializes v Hv) as [s Hs].
    exists s. split; [exact Hs|]. simpl. now rewrite Hv, Hs.
  - intros v -> Hv. simpl. now rewrite Hv.
  - now intros g ->.
Qed.

Lemma options_header_carried_witness :
  exists h,
    field "headers" sample_descriptor = VObj [("options", h)]
    /\ has_field "options" (field "headers" sample_descriptor) = true
    /\ (forall v, options_of sample_call = AVal v -> truthy v = true ->
        exists s, json_serialize v = Some s /\ h = VStr s)
    /\ (forall v, options_of sample_call = AVal v -> truthy v = false -> h = v)
    /\ (forall g, options_of sample_call = AFun g -> h = VUndefined).
Proof.
  apply (options_header_carried sample_resource sample_call false
           sample_descriptor (Normalizer (AFun 1%nat))).
  simpl. left. reflexivity.
Defined.

(** C7 as stated fails: [create] called without options dispatches a
    descriptor whose [headers] object does have the [options] key, with
    the value [undefined]. *)
Lemma options_header_absent_counterexample :
  let this := new_RestResource "widgets" "http://api.example.com" None in
  exists d,
    dispatched (fst (run false
      (create this (VObj [("name", VStr "x")]) (AVal VUndefined) (AFun 1%nat))))
    = [(d, Normalizer (AFun 1%nat))]
    /\ has_field "options" (field "headers" d) = true
    /\ field "headers" d = VObj [("options", VUndefined)].
Proof.
  eexists. repeat split.
Qed.

Lemma perform_error (this : RestResource) (c : MethodCall) (debug_on : bool)
    (tr : list Event) (e : Exn) :
  run debug_on (perform this c) = (tr, inl e) ->
  exn_name e = "TypeError" /\ tr = [].
Proof.
  destruct c as [body options k | id body options k | id options k
                | options k | id filter options k | q options k];
    simpl perform.
  - unfold create. rewrite run_send. discriminate.
  - unfold update. rewrite run_lift_bind.
    destruct (to_string id) as [e'|s] eqn:Hid;
      [|cbv beta iota; rewrite run_send; discriminate].
    intros H. inversion H; subst. split; [|reflexivity].
    exact (to_string_error _ _ Hid).
  - unfold delete. rewrite run_lift_bind.
    destruct (to_string id) as [e'|s] eqn:Hid;
      [|cbv beta iota; rewrite run_send; discriminate].
    intros H. inversion H; subst. split; [|reflexivity].
    exact (to_string_error _ _ Hid).
  - unfold deleteAll. rewrite run_send. discriminate.
  - unfold find, run, bind, lift, ret, _req, _request, emit, get_debug_enabled.
    destruct (truthy id); [destruct (to_string id) as [e'|s] eqn:Hid|];
      destruct debug_on; simpl; try discriminate;
      intros H; inversion H; subst; (split; [|reflexivity]);
      exact (to_string_error _ _ Hid).
  - destruct (run_query debug_on this q options k) as [obj [cb' [Hrun _]]].
    rewrite Hrun. discriminate.
Qed.

(** C8 (as amended).  [update] and [delete] called without an id raise
    nothing: each builds and dispatches a descriptor whose [uri] is the
    collection URL followed by [/undefined].  The only exception a CRUD
    method can raise is the TypeError of converting an id to a string,
    raised before anything is dispatched. *)
Theorem missing_id_dispatches (this : RestResource) (body : Val)
    (options cb : Arg) (debug_on : bool) :
  (exists d,
     run debug_on (update this VUndefined body options cb)
     = ((debug_line debug_on d ++ [TransportRequest d (wrap cb)])%list, inr tt)
     /\ field "method" d = VStr "PUT"
     /\ field "uri" d = VStr (_url this ++ "/undefined"))
  /\ (exists d,
     run debug_on (delete this VUndefined options cb)
     = ((debug_line debug_on d ++ [TransportRequest d (wrap cb)])%list, inr tt)
     /\ field "method" d = VStr "DELETE"
     /\ field "uri" d = VStr (_url this ++ "/undefined"))
  /\ (forall c tr e,
     run debug_on (perform this c) = (tr, inl e) ->
     exn_name e = "TypeError" /\ tr = []).
Proof.
  split; [|split].
  - unfold update. rewrite run_lift_bind. simpl to_string. cbv beta iota.
    rewrite run_send.
    eexists. split; [reflexivity|]. simpl. now rewrite append_assoc.
  - unfold delete. rewrite run_lift_bind. simpl to_string. cbv beta iota.
    rewrite run_send.
    eexists. split; [reflexivity|]. simpl. now rewrite append_assoc.
  - intros c tr e. apply perform_error.
Qed.

(** C8 as stated fails: [update] without an id does not fail with a
    BindingError; it dispatches a PUT to [.../widgets/undefined]. *)
Lemma missing_id_counterexample :
  exists d,
    run false (update sample_resource VUndefined (VObj [("name", VStr "x")])
                 (AVal VUndefined) (AFun 1%nat))
    = ([TransportRequest d (Normalizer (AFun 1%nat))], inr tt)
    /\ field "uri" d = VStr "http://api.example.com/widgets/undefined"
    /\ ~ (exists tr e,
            run false (update sample_resource VUndefined
                         (VObj [("name", VStr "x")])
                         (AVal VUndefined) (AFun 1%nat)) = (tr, inl e)
            /\ exn_name e = "BindingError").
Proof.
  eexists. split; [reflexivity|]. split; [reflexivity|].
  intros [tr [e [H _]]]. discriminate H.
Qed.

(** *** [defineFunctions] *)

Lemma forEach_stops {A} (f : A -> M unit) (pre post : list A) (x : A) :
  (forall w0, exists w1 e, f x w0 = (w1, inl e)) ->
  forall w, exists w' e, forEach f (pre ++ x :: post) w = (w', inl e).
Proof.
  intros Hx. induction pre as [|a pre IH]; intros w; simpl; unfold bind.
  - destruct (Hx w) as [w1 [e He]]. rewrite He. now exists w1, e.
  - destruct (f a w) as [w1 [e|[]]]; [now exists w1, e | apply IH].
Qed.

Lemma forEach_stops_at {A} (f : A -> M unit) (pre post : list A) (x : A)
    (ex : Exn) :
  (forall w0, f x w0 = (w0, inl ex)) ->
  (forall o w0, In o pre -> exists w1, f o w0 = (w1, inr tt)) ->
  forall w, exists w', forEach f (pre ++ x :: post) w = (w', inl ex).
Proof.
  intros Hx. induction pre as [|a pre IH]; intros Hpre w; simpl; unfold bind.
  - rewrite Hx. now exists w.
  - destruct (Hpre a w (or_introl eq_refl)) as [w1 Ha]. rewrite Ha.
    apply IH. intros o w0 Ho. apply Hpre. now right.
Qed.

Lemma define_operation_missing
    (Builder : Type)
    (compile : Val -> Val -> Exn + Builder)
    (builder_debug : Builder -> Val -> Exn + unit)
    (builder_operation : Builder -> Val -> Exn + FunRef)
    (spec : Spec) (op template : Val) (w : World) :
  member "template" op = inr template ->
  truthy template = false ->
  define_operation Builder compile builder_debug builder_operation spec op w
  = (w, inl (missing_template op)).
Proof.
  intros Hm Ht. unfold define_operation, bind, lift.
  rewrite Hm, Ht. reflexivity.
Qed.

(** C9.  When an entry of the operation spec has no (or a falsy)
    [template], [defineFunctions] does not return: it throws while it
    compiles.  If the entries before the first such entry are processed
    without an exception of the builder, the error thrown is the one of
    line 215, whose message names that entry in JSON. *)
Theorem defineFunctions_missing_template
    (Builder : Type)
    (compile : Val -> Val -> Exn + Builder)
    (builder_debug : Builder -> Val -> Exn + unit)
    (builder_operation : Builder -> Val -> Exn + FunRef)
    (spec : Spec) (pre post : list Val) (op template : Val) (w : World) :
  operations spec = (pre ++ op :: post)%list ->
  member "template" op = inr template ->
  truthy template = false ->
  exists w' e,
    defineFunctions Builder compile builder_debug builder_operation spec w
    = (w', inl e)
    /\ ((forall o w0, In o pre ->
           exists w1,
             define_operation Builder compile builder_debug builder_operation
               spec o w0 = (w1, inr tt)) ->
        e = Error (format_j "The operation template is missing: " op)).
Proof.
  intros Hops Hm Ht.
  pose proof (define_operation_missing Builder compile builder_debug
                builder_operation spec op template) as Hop.
  destruct (forEach_stops
              (define_operation Builder compile builder_debug
                 builder_operation spec) pre post op
              (fun w0 => ex_intro _ w0 (ex_intro _ _ (Hop w0 Hm Ht))) w)
    as [w' [e He]].
  exists w', e. unfold defineFunctions, bind. rewrite Hops, He.
  split; [reflexivity|].
  intros Hpre.
  destruct (forEach_stops_at
              (define_operation Builder compile builder_debug
                 builder_operation spec) pre post op (missing_template op)
              (fun w0 => Hop w0 Hm Ht) Hpre w) as [w'' He'].
  rewrite He' in He. now inversion He.
Qed.

Lemma defineFunctions_missing_template_witness :
  exists w' e,
    defineFunctions Val (fun template _ => inr template)
      (fun _ _ => inr tt) (fun _ _ => inr 1%nat) sample_spec
      (mkWorld false [])
    = (w', inl e)
    /\ ((forall o w0, In o [sample_operation] ->
           exists w1,
             define_operation Val (fun template _ => inr template)
               (fun _ _ => inr tt) (fun _ _ => inr 1%nat) sample_spec o w0
             = (w1, inr tt)) ->
        e = Error (format_j "The operation template is missing: "
                     (VObj [("functions", VObj [])]))).
Proof.
  apply (defineFunctions_missing_template Val (fun template _ => inr template)
           (fun _ _ => inr tt) (fun _ _ => inr 1%nat) sample_spec
           [sample_operation] [] (VObj [("functions", VObj [])]) VUndefined
           (mkWorld false [])); reflexivity.
Defined.

(** *** The collection URL *)

Lemma url_of_new (pluralModelName baseUrl : string)
    (requestFunc : option FunRef) :
  _url (new_RestResource pluralModelName baseUrl requestFunc)
  = if String.eqb (last_char baseUrl) "/"
    then baseUrl ++ pluralModelName
    else baseUrl ++ "/" ++ pluralModelName.
Proof. reflexivity. Qed.

(** C10.  [new RestResource(pluralModelName, baseUrl)] sets the collection
    URL to [baseUrl + pluralModelName] when [baseUrl] ends with a slash
    and to [baseUrl + '/' + pluralModelName] otherwise, that is, to
    [b + '/' + pluralModelName] where [b] is [baseUrl] without its one
    trailing slash; and the [uri] of every descriptor that the instance's
    methods dispatch starts with this URL. *)
Theorem collection_url (pluralModelName baseUrl : string)
    (requestFunc : option FunRef) :
  let this := new_RestResource pluralModelName baseUrl requestFunc in
  ((exists b, baseUrl = b ++ "/") -> _url this = baseUrl ++ pluralModelName)
  /\ ((forall b, baseUrl <> b ++ "/") ->
      _url this = baseUrl ++ "/" ++ pluralModelName)
  /\ (exists b, (baseUrl = b ++ "/" \/ baseUrl = b /\ last_char b <> "/")
                /\ _url this = b ++ "/" ++ pluralModelName)
  /\ (forall c debug_on d cb,
        In (d, cb) (dispatched (fst (run debug_on (perform this c)))) ->
        exists s, field "uri" d = VStr (_url this ++ s)).
Proof.
  intros this. unfold this. rewrite url_of_new.
  destruct (String.eqb_spec (last_char baseUrl) "/") as [Hlast|Hlast].
  - destruct (last_char_inv _ _ Hlast) as [b Hb].
    split; [reflexivity|]. split; [intros Hno; now destruct (Hno b)|].
    split.
    + exists b. split; [now left|]. rewrite Hb. apply append_assoc.
    + intros c debug_on d cb Hin. apply dispatched_perform in Hin.
      destruct Hin as [Huri _]. rewrite url_of_new in Huri.
      destruct (String.eqb_spec (last_char baseUrl) "/"); [exact Huri|contradiction].
  - split.
    { intros [b Hb]. destruct Hlast. rewrite Hb. apply last_char_snoc. }
    split; [reflexivity|]. split.
    + exists baseUrl. split; [right; now split | reflexivity].
    + intros c debug_on d cb Hin. apply dispatched_perform in Hin.
      destruct Hin as [Huri _]. rewrite url_of_new in Huri.
      destruct (String.eqb_spec (last_char baseUrl) "/"); [contradiction|exact Huri].
Qed.

(** ** Further properties of the code *)

(** *** One descriptor per call *)

Lemma append_same_l (a b : string) : a ++ b = a -> b = EmptyString.
Proof.
  induction a as [|x a IH]; simpl; intros H; [exact H|].
  inversion H. now apply IH.
Qed.

(** Each method call is determined by the descriptor it builds, or by the
    exception of building it; the [uri] of that descriptor follows the id
    the call converts, its other properties the method. *)
Lemma run_perform (this : RestResource) (c : MethodCall) :
  exists r : Exn + Val,
    (forall debug_on, run debug_on (perform this c) = outcome debug_on c r)
    /\ match item_id c with
       | None => exists d, r = inr d /\ field "uri" d = VStr (_url this)
       | Some id =>
           match to_string id with
           | inl e => r = inl e
           | inr s =>
               exists d, r = inr d
                         /\ field "uri" d = VStr (_url this ++ "/" ++ s)
           end
       end
    /\ (forall d, r = inr d ->
        field "method" d = VStr (verb_of c)
        /\ field "json" d = VBool true
        /\ match body_of c with
           | Some b => has_field "body" d = true /\ field "body" d = b
           | None => has_field "body" d = false
           end
        /\ match c with
           | CallFind _ filter _ _ => field "qs" d = VObj [("filter", filter)]
           | CallQuery _ _ _ => has_field "qs" d = true
           | _ => has_field "qs" d = false
           end).
Proof.
  destruct c as [body options k | id body options k | id options k
                | options k | id filter options k | q options k];
    simpl perform; simpl item_id; simpl verb_of; simpl body_of;
    cbv beta iota.
  - eexists (inr _). split; [intros dbg; unfold create; apply run_send|].
    split.
    + eexists. split; [reflexivity|]. reflexivity.
    + intros d H. inversion H; subst. repeat split.
  - destruct (to_string id) as [e|s] eqn:Hid.
    + exists (inl e). split; [|split; [cbv beta iota; reflexivity | intros d H; discriminate H]].
      intros dbg. unfold update. now rewrite run_lift_bind, Hid.
    + eexists (inr _). split; [|split].
      * intros dbg. unfold update. rewrite run_lift_bind, Hid.
        cbv beta iota. apply run_send.
      * cbv beta iota. eexists. split; [reflexivity|]. simpl.
        now rewrite append_assoc.
      * intros d H. inversion H; subst. repeat split.
  - destruct (to_string id) as [e|s] eqn:Hid.
    + exists (inl e). split; [|split; [cbv beta iota; reflexivity | intros d H; discriminate H]].
      intros dbg. unfold delete. now rewrite run_lift_bind, Hid.
    + eexists (inr _). split; [|split].
      * intros dbg. unfold delete. rewrite run_lift_bind, Hid.
        cbv beta iota. apply run_send.
      * cbv beta iota. eexists. split; [reflexivity|]. simpl.
        now rewrite append_assoc.
      * intros d H. inversion H; subst. repeat split.
  - eexists (inr _). split; [intros dbg; unfold deleteAll; apply run_send|].
    split.
    + eexists. split; [reflexivity|]. reflexivity.
    + intros d H. inversion H; subst. repeat split.
  - destruct (truthy id) eqn:Ht.
    + destruct (to_string id) as [e|s] eqn:Hid.
      * exists (inl e). split; [|split; [cbv beta iota; reflexivity | intros d H; discriminate H]].
        intros dbg. unfold find, run, bind, lift. rewrite Ht, Hid. reflexivity.
      * eexists (inr _). split; [|split].
        -- intros dbg.
           unfold find, run, bind, lift, ret, _req, _request, emit,
             get_debug_enabled, outcome, debug_line.
           rewrite Ht, Hid. destruct dbg; reflexivity.
        -- cbv beta iota. eexists. split; reflexivity.
        -- intros d H. inversion H; subst. repeat split.
    + eexists (inr _). split; [|split].
      * intros dbg. unfold find. rewrite Ht, run_ret_bind. apply run_send.
      * eexists. split; [reflexivity|]. simpl. now rewrite append_empty_r.
      * intros d H. inversion H; subst. repeat split.
  - destruct (negb (truthy_arg k) && is_function options) eqn:Hc;
      (eexists (inr _); split; [|split];
       [ intros dbg; unfold query, outcome, continuation_of; rewrite Hc;
         apply run_send
       | eexists; split; reflexivity
       | intros d H; inversion H; subst; repeat split ]).
Qed.


Lemma dispatched_outcome (debug_on : bool) (c : MethodCall) (r : Exn + Val) :
  dispatched (fst (outcome debug_on c r))
  = match r with
    | inl _ => []
    | inr d => [(d, wrap (continuation_of c))]
    end.
Proof.
  destruct r as [e|d]; [reflexivity|]. simpl. apply dispatched_send.
Qed.

(** X1.  A call of a CRUD method either throws before any external call
    is made, or makes exactly one transport request, handing over the
    [wrap] of the call's continuation; with [debug.enabled] the one thing
    logged, just before, is the descriptor of that request. *)
Theorem perform_one_request (this : RestResource) (c : MethodCall)
    (debug_on : bool) :
  (exists e, run debug_on (perform this c) = ([], inl e))
  \/ (exists d,
        run debug_on (perform this c)
        = ((debug_line debug_on d
            ++ [TransportRequest d (wrap (continuation_of c))])%list, inr tt)).
Proof.
  destruct (run_perform this c) as [[e|d] [Hrun _]]; rewrite Hrun;
    [left | right]; eexists; reflexivity.
Qed.

(** X2.  [debug.enabled] changes neither the result of a method call nor
    what it dispatches.  Without it the trace holds transport requests
    only; with it every dispatched descriptor is also logged as it is. *)
Theorem debug_only_adds_log_line (this : RestResource) (c : MethodCall) :
  snd (run true (perform this c)) = snd (run false (perform this c))
  /\ dispatched (fst (run true (perform this c)))
     = dispatched (fst (run false (perform this c)))
  /\ (forall ev, In ev (fst (run false (perform this c))) ->
      exists d cb, ev = TransportRequest d cb)
  /\ (forall d cb, In (TransportRequest d cb) (fst (run true (perform this c))) ->
      In (DebugLog "Request: %j" d) (fst (run true (perform this c)))).
Proof.
  destruct (run_perform this c) as [r [Hrun _]]. rewrite !Hrun.
  destruct r as [e|d]; simpl.
  - repeat split; intros; contradiction.
  - split; [reflexivity|]. split; [reflexivity|]. split.
    + intros ev [<-|[]]. eauto.
    + intros d' cb [H|[H|[]]]; [discriminate H|]. inversion H; subst. now left.
Qed.


(** X4.  The [uri] of a dispatched descriptor is the collection URL when
    the call converts no id ([create], [deleteAll], [query], [find] with a
    falsy id), and the collection URL, a slash and the id as a string
    otherwise: [update], [delete] and [find] address an item alike. *)
Theorem uri_follows_item_id (this : RestResource) (c : MethodCall)
    (debug_on : bool) (d : Val) (k : Callback) :
  In (d, k) (dispatched (fst (run debug_on (perform this c)))) ->
  match item_id c with
  | None => field "uri" d = VStr (_url this)
  | Some id =>
      exists s, to_string id = inr s
                /\ field "uri" d = VStr (_url this ++ "/" ++ s)
  end.
Proof.
  destruct (run_perform this c) as [r [Hrun [Huri _]]].
  rewrite Hrun, dispatched_outcome.
  destruct (item_id c) as [id|].
  - destruct (to_string id) as [e|s].
    + subst r. intros [].
    + destruct Huri as [d' [-> Hd']]. intros [H|[]]. inversion H; subst.
      now exists s.
  - destruct Huri as [d' [-> Hd']]. intros [H|[]]. now inversion H; subst.
Qed.

Lemma uri_follows_item_id_witness :
  match item_id sample_update with
  | None => field "uri" sample_update_descriptor = VStr (_url sample_resource)
  | Some id =>
      exists s, to_string id = inr s
                /\ field "uri" sample_update_descriptor
                   = VStr (_url sample_resource ++ "/" ++ s)
  end.
Proof.
  apply (uri_follows_item_id sample_resource sample_update false
           sample_update_descriptor (Normalizer (AFun 1%nat))).
  simpl. left. reflexivity.
Defined.

(** X5.  A call that names an item never addresses the collection itself:
    whatever the id of [update] or [delete] (missing, [null], 0 or the
    empty string included) and whatever truthy id of [find], the [uri]
    dispatched differs from the collection URL. *)
Theorem item_call_never_hits_collection (this : RestResource)
    (c : MethodCall) (debug_on : bool) (id d : Val) (k : Callback) :
  item_id c = Some id ->
  In (d, k) (dispatched (fst (run debug_on (perform this c)))) ->
  field "uri" d <> VStr (_url this).
Proof.
  intros Hid. destruct (run_perform this c) as [r [Hrun [Huri _]]].
  rewrite Hrun, dispatched_outcome. rewrite Hid in Huri.
  destruct (to_string id) as [e|s].
  - subst r. intros [].
  - destruct Huri as [d' [-> Hd']]. intros [H|[]]. inversion H; subst.
    rewrite Hd'. intros Heq. inversion Heq as [H'].
    apply append_same_l in H'. discriminate H'.
Qed.

Lemma item_call_never_hits_collection_witness :
  field "uri" sample_update_descriptor <> VStr (_url sample_resource).
Proof.
  apply (item_call_never_hits_collection sample_resource sample_update false
           (VNum 42) sample_update_descriptor (Normalizer (AFun 1%nat))).
  - reflexivity.
  - simpl. left. reflexivity.
Defined.

(** X6.  Every dispatched descriptor has [json: true] and the verb of its
    method (POST for [create], PUT for [update], DELETE for [delete] and
    [deleteAll], GET for [find] and [query]).  It has a [body] property
    exactly for [create] and [update], holding the body argument as it
    was given, [undefined] included. *)
Theorem descriptor_verb_json_body (this : RestResource) (c : MethodCall)
    (debug_on : bool) (d : Val) (k : Callback) :
  In (d, k) (dispatched (fst (run debug_on (perform this c)))) ->
  field "method" d = VStr (verb_of c)
  /\ field "json" d = VBool true
  /\ match body_of c with
     | Some b => has_field "body" d = true /\ field "body" d = b
     | None => has_field "body" d = false
     end.
Proof.
  destruct (run_perform this c) as [r [Hrun [_ Hshape]]].
  rewrite Hrun, dispatched_outcome.
  destruct r as [e|d']; [intros []|]. intros [H|[]]. inversion H; subst.
  destruct (Hshape d eq_refl) as [Hm [Hj [Hb _]]]. now repeat split.
Qed.

Lemma descriptor_verb_json_body_witness :
  field "method" sample_update_descriptor = VStr (verb_of sample_update)
  /\ field "json" sample_update_descriptor = VBool true
  /\ match body_of sample_update with
     | Some b => has_field "body" sample_update_descriptor = true
                 /\ field "body" sample_update_descriptor = b
     | None => has_field "body" sample_update_descriptor = false
     end.
Proof.
  apply (descriptor_verb_json_body sample_resource sample_update false
           sample_update_descriptor (Normalizer (AFun 1%nat))).
  simpl. left. reflexivity.
Defined.

(** X7.  Only [find] and [query] send a query string.  [find] sends its
    filter argument as [qs.filter], and nothing else in [qs], whether or
    not an id is given; the other four methods build no [qs] at all. *)
Theorem query_string_placement (this : RestResource) (c : MethodCall)
    (debug_on : bool) (d : Val) (k : Callback) :
  In (d, k) (dispatched (fst (run debug_on (perform this c)))) ->
  match c with
  | CallFind _ filter _ _ => field "qs" d = VObj [("filter", filter)]
  | CallQuery _ _ _ => has_field "qs" d = true
  | _ => has_field "qs" d = false
  end.
Proof.
  destruct (run_perform this c) as [r [Hrun [_ Hshape]]].
  rewrite Hrun, dispatched_outcome.
  destruct r as [e|d']; [intros []|]. intros [H|[]]. inversion H; subst.
  now destruct (Hshape d eq_refl) as [_ [_ [_ Hq]]].
Qed.

Lemma query_string_placement_witness :
  field "qs" sample_find_descriptor
  = VObj [("filter", VObj [("fields", VStr "name")])].
Proof.
  apply (query_string_placement sample_resource
           (CallFind (VNum 42) (VObj [("fields", VStr "name")])
              (AVal VUndefined) (AFun 1%nat))
           false sample_find_descriptor (Normalizer (AFun 1%nat))).
  simpl. left. reflexivity.
Defined.

(** X8.  Through every CRUD method the caller's function is reached by way
    of the normalizer: when the transport calls back the callback it was
    handed, the function is called once with the response as third
    argument; with the synthesized error and a [null] result when the
    status rule holds, with the transport's error and the body otherwise. *)
Theorem method_callback_is_normalized (this : RestResource) (c : MethodCall)
    (debug_on : bool) (d : Val) (k : Callback) (f : FunRef)
    (err : Val) (response : option Response) (body : Val) :
  continuation_of c = AFun f ->
  In (d, k) (dispatched (fst (run debug_on (perform this c)))) ->
  exists e result,
    invoke k err response body = Some (Call f e result response)
    /\ (is_http_error err response = true ->
        result = VNull
        /\ exists r, response = Some r
                     /\ e = ErrorObject (http_error_props r body))
    /\ (is_http_error err response = false ->
        e = Passed err /\ result = body).
Proof.
  intros Hc Hin. apply dispatched_perform in Hin.
  destruct Hin as [_ [_ ->]]. rewrite Hc, invoke_wrap_function.
  destruct (is_http_error err response) eqn:Hrule.
  - pose proof Hrule as Hr. apply is_http_error_iff in Hr.
    destruct Hr as [_ [r [-> _]]].
    rewrite (normalize_http_error _ _ _ _ Hrule).
    exists (ErrorObject (http_error_props r body)), VNull.
    split; [reflexivity|]. split; [|discriminate].
    intros _. split; [reflexivity|]. now exists r.
  - rewrite (normalize_pass_through _ _ _ _ Hrule).
    exists (Passed err), body.
    split; [reflexivity|]. split; [discriminate|]. now split.
Qed.

Lemma method_callback_is_normalized_witness :
  exists e result,
    invoke (Normalizer (AFun 1%nat)) VNull (Some (mkResponse 404 None))
      VUndefined
    = Some (Call 1%nat e result (Some (mkResponse 404 None)))
    /\ (is_http_error VNull (Some (mkResponse 404 None)) = true ->
        result = VNull
        /\ exists r, Some (mkResponse 404 None) = Some r
                     /\ e = ErrorObject (http_error_props r VUndefined))
    /\ (is_http_error VNull (Some (mkResponse 404 None)) = false ->
        e = Passed VNull /\ result = VUndefined).
Proof.
  apply (method_callback_is_normalized sample_resource sample_update false
           sample_update_descriptor (Normalizer (AFun 1%nat)) 1%nat).
  - reflexivity.
  - simpl. left. reflexivity.
Defined.

(** X9.  A truthy value that is not a function is accepted as a
    continuation: [wrap] closes over it, the methods dispatch the request
    with that closure, and the TypeError of calling it is raised only
    when the transport calls back, whatever it calls back with. *)
Theorem truthy_non_function_callback (v : Val) :
  truthy v = true ->
  wrap (AVal v) = Normalizer (AVal v)
  /\ (forall err response body,
        exists e, invoke (wrap (AVal v)) err response body = Some (Raise e)
                  /\ exn_name e = "TypeError")
  /\ (forall this c debug_on d k,
        continuation_of c = AVal v ->
        In (d, k) (dispatched (fst (run debug_on (perform this c)))) ->
        k = Normalizer (AVal v)).
Proof.
  intros Hv.
  assert (Hw : wrap (AVal v) = Normalizer (AVal v))
    by (unfold wrap; simpl; now rewrite Hv).
  split; [exact Hw|]. split.
  - intros err response body. rewrite Hw. simpl. unfold normalize.
    destruct response as [r|];
      [destruct (negb (truthy err) && (400 <=? statusCode r))|];
      eexists; split; reflexivity.
  - intros this c debug_on d k Hc Hin. apply dispatched_perform in Hin.
    destruct Hin as [_ [_ ->]]. now rewrite Hc.
Qed.

Lemma truthy_non_function_callback_witness :
  wrap (AVal (VObj [])) = Normalizer (AVal (VObj []))
  /\ (forall err response body,
        exists e, invoke (wrap (AVal (VObj []))) err response body
                  = Some (Raise e)
                  /\ exn_name e = "TypeError")
  /\ (forall this c debug_on d k,
        continuation_of c = AVal (VObj []) ->
        In (d, k) (dispatched (fst (run debug_on (perform this c)))) ->
        k = Normalizer (AVal (VObj []))).
Proof.
  apply (truthy_non_function_callback (VObj [])). reflexivity.
Defined.

(** X10.  [query] called with a function in the options slot and no
    continuation behaves in every respect as [query({}, undefined, fn)]:
    same trace, same result, whatever query object was passed. *)
Theorem query_shorthand_is_empty_query (this : RestResource) (q : Val)
    (f : FunRef) (cb : Arg) (debug_on : bool) :
  truthy_arg cb = false ->
  run debug_on (query this q (AFun f) cb)
  = run debug_on (query this (VObj []) (AVal VUndefined) (AFun f)).
Proof.
  intros Hcb. unfold query. rewrite Hcb. simpl. now rewrite !run_send.
Qed.

Lemma query_shorthand_is_empty_query_witness :
  run true (query sample_resource (VObj [("name", VStr "x")]) (AFun 1%nat)
              (AVal VUndefined))
  = run true (query sample_resource (VObj []) (AVal VUndefined) (AFun 1%nat)).
Proof.
  apply (query_shorthand_is_empty_query sample_resource
           (VObj [("name", VStr "x")]) 1%nat (AVal VUndefined) true).
  reflexivity.
Defined.

(** X11.  A falsy query object ([undefined], [null], 0, the empty string)
    is the empty query: [query] behaves as if [{}] had been passed,
    whatever the options and the continuation. *)
Theorem query_falsy_is_empty (this : RestResource) (q : Val)
    (options cb : Arg) (debug_on : bool) :
  truthy q = false ->
  run debug_on (query this q options cb)
  = run debug_on (query this (VObj []) options cb).
Proof.
  intros Hq. unfold query. now rewrite Hq.
Qed.

Lemma query_falsy_is_empty_witness :
  run false (query sample_resource VNull (AVal VUndefined) (AFun 1%nat))
  = run false (query sample_resource (VObj []) (AVal VUndefined) (AFun 1%nat)).
Proof.
  apply (query_falsy_is_empty sample_resource VNull (AVal VUndefined)
           (AFun 1%nat) false).
  reflexivity.
Defined.

(** X12.  One trailing slash on the base URL makes no difference: for a
    base URL that does not end with a slash, the resource built from it
    and the one built from it with a slash appended have the same
    collection URL. *)
Theorem trailing_slash_is_optional (pluralModelName baseUrl : string)
    (requestFunc : option FunRef) :
  last_char baseUrl <> "/" ->
  _url (new_RestResource pluralModelName (baseUrl ++ "/") requestFunc)
  = _url (new_RestResource pluralModelName baseUrl requestFunc).
Proof.
  intros Hlast. rewrite !url_of_new, last_char_snoc.
  destruct (String.eqb_spec (last_char baseUrl) "/"); [contradiction|].
  simpl String.eqb. now rewrite append_assoc.
Qed.

Lemma trailing_slash_is_optional_witness :
  _url (new_RestResource "widgets" ("http://api.example.com" ++ "/") None)
  = _url (new_RestResource "widgets" "http://api.example.com" None).
Proof.
  apply (trailing_slash_is_optional "widgets" "http://api.example.com" None).
  discriminate.
Defined.

(** *** Compiling the operation spec *)








Lemma forEach_success {A} (f : A -> M unit) (l : list A) (w w' : World) :
  forEach f l w = (w', inr tt) ->
  Forall (fun x => exists w0 w1, f x w0 = (w1, inr tt)) l.
Proof.
  revert w. induction l as [|x l IH]; intros w; simpl; [constructor|].
  unfold bind. destruct (f x w) as [w1 [e|[]]] eqn:Hx; [discriminate|].
  intros H. constructor; [now exists w, w1 | exact (IH _ H)].
Qed.

Lemma define_operation_success
    (Builder : Type)
    (compile : Val -> Val -> Exn + Builder)
    (builder_debug : Builder -> Val -> Exn + unit)
    (builder_operation : Builder -> Val -> Exn + FunRef)
    (spec : Spec) (op : Val) (w w' : World) :
  define_operation Builder compile builder_debug builder_operation spec op w
  = (w', inr tt) ->
  exists template b,
    member "template" op = inr template
    /\ truthy template = true
    /\ compile template requestFunc = inr b.
Proof.
  unfold define_operation, bind, lift.
  destruct (member "template" op) as [e|template]; [discriminate|].
  destruct (truthy template) eqn:Ht; simpl; [|discriminate].
  destruct (compile template requestFunc) as [e|b] eqn:Hc; [discriminate|].
  intros _. now exists template, b.
Qed.

(** X13.  When [defineFunctions] returns, every entry of the spec had a
    truthy template that the builder compiled, and yet the value returned
    is the empty object: the compiled functions are assigned into the
    entries, and the table the function hands back is never filled. *)
Theorem defineFunctions_returns_empty
    (Builder : Type)
    (compile : Val -> Val -> Exn + Builder)
    (builder_debug : Builder -> Val -> Exn + unit)
    (builder_operation : Builder -> Val -> Exn + FunRef)
    (spec : Spec) (w w' : World) (v : Val) :
  defineFunctions Builder compile builder_debug builder_operation spec w
  = (w', inr v) ->
  v = VObj []
  /\ Forall (fun op => exists template b,
                member "template" op = inr template
                /\ truthy template = true
                /\ compile template requestFunc = inr b)
       (operations spec).
Proof.
  unfold defineFunctions, bind, ret.
  destruct (forEach _ (operations spec) w) as [w1 [e|[]]] eqn:Hrun;
    intros H; inversion H; subst.
  split; [reflexivity|].
  apply forEach_success in Hrun.
  eapply Forall_impl; [|exact Hrun].
  intros op [w0 [w2 Hop]]. now apply define_operation_success in Hop.
Qed.

Lemma defineFunctions_returns_empty_witness :
  VObj [] = VObj []
  /\ Forall (fun op => exists template b,
                member "template" op = inr template
                /\ truthy template = true
                /\ sample_compile template requestFunc = inr b)
       (operations (mkSpec (VBool false) [sample_operation])).
Proof.
  apply (defineFunctions_returns_empty Val sample_compile sample_builder_debug
           sample_builder_operation (mkSpec (VBool false) [sample_operation])
           (mkWorld false []) (mkWorld false [Assigned "find" 1%nat])).
  reflexivity.
Defined.


Lemma forEach_failure_prefix {A} (f : A -> M unit) (l more : list A)
    (w w' : World) (e : Exn) :
  forEach f l w = (w', inl e) -> forEach f (l ++ more) w = (w', inl e).
Proof.
  revert w. induction l as [|x l IH]; intros w; simpl; unfold bind.
  - unfold ret. discriminate.
  - destruct (f x w) as [w1 [e1|[]]]; [trivial | apply IH].
Qed.

(** X15.  Compilation stops at the first entry that fails, whatever the
    failure: if [defineFunctions] throws on a list of entries, it throws
    the same exception, after the same events, on any longer list that
    starts with these entries. *)
Theorem defineFunctions_stops_at_first_failure
    (Builder : Type)
    (compile : Val -> Val -> Exn + Builder)
    (builder_debug : Builder -> Val -> Exn + unit)
    (builder_operation : Builder -> Val -> Exn + FunRef)
    (flag : Val) (ops more : list Val) (w w' : World) (e : Exn) :
  defineFunctions Builder compile builder_debug builder_operation
    (mkSpec flag ops) w = (w', inl e) ->
  defineFunctions Builder compile builder_debug builder_operation
    (mkSpec flag (ops ++ more)) w = (w', inl e).
Proof.
  unfold defineFunctions, bind. simpl operations.
  change (define_operation Builder compile builder_debug builder_operation
            (mkSpec flag (ops ++ more)))
    with (define_operation Builder compile builder_debug builder_operation
            (mkSpec flag ops)).
  destruct (forEach _ ops w) as [w1 [e1|[]]] eqn:Hrun; [|discriminate].
  intros H. inversion H; subst.
  now rewrite (forEach_failure_prefix _ _ more _ _ _ Hrun).
Qed.

Lemma defineFunctions_stops_at_first_failure_witness :
  defineFunctions Val sample_compile sample_builder_debug
    sample_builder_operation
    (mkSpec (VBool false)
       ([sample_operation; VObj [("functions", VObj [])]]
        ++ [sample_operation]))
    (mkWorld false [])
  = (mkWorld false [Assigned "find" 1%nat],
     inl (missing_template (VObj [("functions", VObj [])]))).
Proof.
  apply (defineFunctions_stops_at_first_failure Val sample_compile
           sample_builder_debug sample_builder_operation (VBool false)
           [sample_operation; VObj [("functions", VObj [])]]
           [sample_operation]).
  reflexivity.
Defined.

Lemma bind_each_function
    (Builder : Type)
    (builder_operation : Builder -> Val -> Exn + FunRef)
    (operation : Val -> FunRef)
    (spec : Spec) (b : Builder) (fs : Props) :
  (forall f v, In (f, v) fs -> builder_operation b v = inr (operation v)) ->
  forall w,
    forEach (fun '(f, v) =>
               fn <- mix_in Builder builder_operation spec b f v ;;
               emit (Assigned f fn)) fs w
    = (mkWorld (debug_enabled w)
         (events w ++ binding_events (truthy (debug spec)) operation fs),
       inr tt).
Proof.
  induction fs as [|[f v] fs IH]; intros Hop w.
  - simpl. unfold ret. rewrite app_nil_r. now destruct w.
  - simpl forEach. unfold bind at 1.
    assert (Hstep :
      (fn <- mix_in Builder builder_operation spec b f v ;;
       emit (Assigned f fn)) w
      = (mkWorld (debug_enabled w)
           (events w
            ++ (if truthy (debug spec)
                then [GLog "Mixing in method: %s %s" f v] else [])
            ++ [Assigned f (operation v)]), inr tt)).
    { unfold mix_in, bind, lift, emit, ret.
      rewrite (Hop f v (or_introl eq_refl)).
      destruct (truthy (debug spec)); simpl; [|reflexivity].
      now rewrite <- app_assoc. }
    pose proof (IH (fun f' v' H => Hop f' v' (or_intror H))) as IH'.
    rewrite Hstep, IH'.
    simpl debug_enabled. simpl events. simpl binding_events.
    now rewrite <- !app_assoc.
Qed.

(** X16.  An entry with a truthy template that the builder compiles has
    its functions bound in the order of the [functions] object: for each
    name, the log line when the spec's [debug] flag is truthy, then the
    assignment of [builder.operation] of its argument spec; nothing else
    happens, and an entry without [functions] binds nothing. *)
Theorem define_operation_binds_in_order
    (Builder : Type)
    (compile : Val -> Val -> Exn + Builder)
    (builder_debug : Builder -> Val -> Exn + unit)
    (builder_operation : Builder -> Val -> Exn + FunRef)
    (operation : Val -> FunRef)
    (spec : Spec) (op template functions : Val) (b : Builder) (fs : Props)
    (w : World) :
  member "template" op = inr template ->
  truthy template = true ->
  compile template requestFunc = inr b ->
  builder_debug b (debug spec) = inr tt ->
  member "functions" op = inr functions ->
  functions = VObj fs \/ (truthy functions = false /\ fs = []) ->
  (forall f v, In (f, v) fs -> builder_operation b v = inr (operation v)) ->
  define_operation Builder compile builder_debug builder_operation spec op w
  = (mkWorld (debug_enabled w)
       (events w ++ binding_events (truthy (debug spec)) operation fs),
     inr tt).
Proof.
  intros Ht Htruthy Hc Hd Hf Hshape Hop.
  unfold define_operation, bind, lift.
  rewrite Ht, Htruthy. simpl. rewrite Hc, Hd, Hf.
  destruct Hshape as [-> | [Hfalsy ->]].
  - simpl bind_functions. now apply bind_each_function.
  - unfold bind_functions. rewrite Hfalsy. unfold ret. simpl.
    rewrite app_nil_r. now destruct w.
Qed.

Lemma define_operation_binds_in_order_witness :
  define_operation Val sample_compile sample_builder_debug
    sample_builder_operation (mkSpec (VBool true) []) sample_operation
    (mkWorld false [])
  = (mkWorld false
       ([] ++ binding_events true (fun _ => 1%nat) [("find", VStr "id")]),
     inr tt).
Proof.
  apply (define_operation_binds_in_order Val sample_compile
           sample_builder_debug sample_builder_operation (fun _ => 1%nat)
           (mkSpec (VBool true) []) sample_operation
           (VObj [("method", VStr "GET"); ("url", VStr "/widgets")])
           (VObj [("find", VStr "id")])
           (VObj [("method", VStr "GET"); ("url", VStr "/widgets")])
           [("find", VStr "id")] (mkWorld false []));
    try reflexivity.
  left. reflexivity.
Defined.

(** *** The normalizer, read backwards *)

(** X17.  The continuation receives a synthesized error object only for
    a response with a status code of 400 or more that came without a
    transport error; the object is then the one built from that response
    and body, and the result is [null].  No response below 400, and no
    call without a response, ever yields one. *)
Theorem synthesized_error_only_for_http_error (f g : FunRef) (err : Val)
    (response rsp : option Response) (body result : Val) (own : Props) :
  invoke (wrap (AFun f)) err response body
  = Some (Call g (ErrorObject own) result rsp) ->
  truthy err = false
  /\ result = VNull
  /\ exists r, response = Some r
               /\ 400 <= statusCode r
               /\ own = http_error_props r body.
Proof.
  rewrite invoke_wrap_function.
  destruct (is_http_error err response) eqn:Hrule.
  - pose proof Hrule as Hr. apply is_http_error_iff in Hr.
    destruct Hr as [Herr [r [-> Hcode]]].
    rewrite (normalize_http_error _ _ _ _ Hrule). simpl.
    intros H. inversion H; subst. split; [exact Herr|].
    split; [reflexivity|]. now exists r.
  - rewrite (normalize_pass_through _ _ _ _ Hrule). simpl.
    intros H. inversion H.
Qed.

Lemma synthesized_error_only_for_http_error_witness :
  truthy VNull = false
  /\ VNull = VNull
  /\ exists r, Some (mkResponse 404 None) = Some r
               /\ 400 <= statusCode r
               /\ [("message", VStr "HTTP code: 404"); ("statusCode", VNum 404)]
                  = http_error_props r VUndefined.
Proof.
  apply (synthesized_error_only_for_http_error 1%nat 1%nat VNull
           (Some (mkResponse 404 None)) (Some (mkResponse 404 None))
           VUndefined VNull
           [("message", VStr "HTTP code: 404"); ("statusCode", VNum 404)]).
  reflexivity.
Defined.
